(** * tools/get-pm-apikey.py: the Polymarket credential bootstrap script

    The script is forty-six lines of straight-line Python: it loads the
    [.env] file, reads two environment variables, builds a
    [py_clob_client] client, asks the remote CLOB API for an API
    credential set, prints it, binds it on the client and lists the API
    keys as a self-check.

    The development has three layers.
    - The few pieces of Python the script leans on: truthiness,
      exceptions and [except Exception], [len], [str] of an integer,
      string repetition.
    - [Script], a trace-and-error monad.  A computation yields the list
      of observable events it performed and either a value or the
      exception that stopped it.
    - The script itself, [main], written statement by statement over an
      explicit [World]: the process environment and the behaviour of the
      two third-party libraries ([python-dotenv], [py_clob_client]),
      which are not part of the repository.  What their calls answer
      is a parameter of the run; what the specification says about
      them (which calls are local, which go over the network) is
      marked as modelled from it.

    The two imports are taken to succeed, and so is every [print]: the
    encoding of the console is not modelled. *)

From stdpp Require Import gmap strings list.
From Stdlib Require Import Ascii DecimalString DecimalNat.

(** ** Python values and exceptions *)

(** The exception classes that matter to the control flow.  Only the
    position relative to [Exception] in the class hierarchy is relevant:
    [except Exception] catches every class deriving from it and lets
    [KeyboardInterrupt] (a [BaseException] that is not an [Exception])
    through. *)
Inductive exc_class : Type :=
| ValueError
| TypeError
| AttributeError
| ExceptionSubclass (name : string)
| KeyboardInterrupt.

Record PyExc : Type := mkExc {
  exc_cls : exc_class;
  (** what [str(e)] evaluates to *)
  exc_str : string
}.

Definition isinstance_Exception (e : PyExc) : bool :=
  match exc_cls e with
  | ValueError | TypeError | AttributeError | ExceptionSubclass _ => true
  | KeyboardInterrupt => false
  end.

(** The objects [get_api_keys] can hand back: parsed JSON. *)
#[warnings="-register-all"]
Inductive pyval : Type :=
| PyNone
| PyStr (s : string)
| PyList (items : list pyval)
| PyDict (entries : list (string * pyval)).

(** ["\n"] *)
Definition nl : string := String "010"%char "".

(** [s * n] *)
Fixpoint str_mul (s : string) (n : nat) : string :=
  match n with
  | O => ""
  | S n' => s +:+ str_mul s n'
  end.

(** Strings are kept as their UTF-8 bytes; a code point is counted at
    each byte that is not a continuation byte [10xxxxxx]. *)
Fixpoint utf8_len (s : string) : nat :=
  match s with
  | "" => 0
  | String c s' =>
      let b := Ascii.nat_of_ascii c in
      (if (Nat.leb 128 b && Nat.ltb b 192)%bool then 0 else 1) + utf8_len s'
  end.

(** [len(v)]: defined on strings, lists and dicts, [TypeError] on
    [None]. *)
Definition py_len (v : pyval) : PyExc + nat :=
  match v with
  | PyNone => inl (mkExc TypeError "object of type 'NoneType' has no len()")
  | PyStr s => inr (utf8_len s)
  | PyList items => inr (length items)
  | PyDict entries => inr (length entries)
  end.

(** [str(n)] for a non-negative integer, as interpolated by an
    f-string. *)
Definition str_of_nat (n : nat) : string :=
  NilZero.string_of_uint (Nat.to_uint n).

(** Reading a decimal numeral back ([int(s)] on a digit string). *)
Definition nat_of_str (s : string) : option nat :=
  Nat.of_uint <$> NilZero.uint_of_string s.

(** Truthiness of the result of [os.getenv]: [None] and [""] are
    falsy, every other string is truthy. *)
Definition truthy (v : option string) : bool :=
  match v with
  | None => false
  | Some "" => false
  | Some (String _ _) => true
  end.

(** ** The third-party client, as seen from the script *)

(** Keyword arguments of the [ClobClient] constructor. *)
Record ClobArgs : Type := mkArgs {
  host : string;
  chain_id : Z;
  key : option string;
  signature_type : Z;
  funder : option string
}.

(** [ApiCreds]: three opaque strings. *)
Record ApiCreds : Type := mkCreds {
  api_key : string;
  api_secret : string;
  api_passphrase : string
}.

(** The client handle: the constructor arguments and the credentials
    bound on it so far. *)
Record ClobClient : Type := mkClient {
  client_args : ClobArgs;
  client_creds : option ApiCreds
}.

(** Behaviour of [py_clob_client] in one run.  [None] in an
    [option PyExc] means the call returns normally.
    [create_or_derive_api_creds] raises, returns an [ApiCreds] or
    returns [None] (the library does so when it cannot read the
    response). *)
Record ClobBackend : Type := mkBackend {
  init_raises : ClobArgs → option PyExc;
  create_or_derive_result : ClobClient → PyExc + option ApiCreds;
  set_api_creds_raises : ClobClient → ApiCreds → option PyExc;
  get_api_keys_result : ClobClient → PyExc + pyval
}.

(** Everything outside the script that a run depends on. *)
Record World : Type := mkWorld {
  (** [os.environ] when the interpreter starts *)
  os_environ : gmap string string;
  (** what [load_dotenv()] does to [os.environ] *)
  dotenv_effect : gmap string string → gmap string string;
  backend : ClobBackend
}.

(** The assignments of a parsed [.env] file as a mapping: a later
    assignment of a name replaces an earlier one. *)
Definition dotenv_values (file : list (string * string)) : gmap string string :=
  foldl (λ acc kv, <[kv.1 := kv.2]> acc) ∅ file.

(** The usual [load_dotenv()] behaviour for a parsed [.env] file:
    variables already present in the environment are not overridden,
    the others take the value the file gives them. *)
Definition dotenv_no_override (file : list (string * string))
    (env : gmap string string) : gmap string string :=
  env ∪ dotenv_values file.

(** ** Observable events and the script monad *)

Inductive event : Type :=
| EvLoadDotenv
| EvGetenv (name : string)
| EvClobClient (args : ClobArgs)
| EvCreateOrDerive (c : ClobClient)
| EvSetApiCreds (c : ClobClient) (creds : ApiCreds)
| EvGetApiKeys (c : ClobClient)
| EvPrint (s : string).

(** A computation: the events performed, then the exception raised or
    the value returned. *)
Definition Script (A : Type) : Type := list event * (PyExc + A).

Definition ret {A} (a : A) : Script A := ([], inr a).

Definition raise {A} (e : PyExc) : Script A := ([], inl e).

Definition emit (ev : event) : Script unit := ([ev], inr tt).

Definition bind {A B} (m : Script A) (k : A → Script B) : Script B :=
  match m with
  | (t, inl e) => (t, inl e)
  | (t, inr a) => let '(t', r) := k a in (t ++ t', r)
  end.

(** Performing [ev] and then returning or raising what the outside
    world answered. *)
Definition call {A} (ev : event) (answer : PyExc + A) : Script A :=
  ([ev], answer).

(** [try: body / except Exception as e: handler e] *)
Definition try_except_Exception {A} (body : Script A)
    (handler : PyExc → Script A) : Script A :=
  match body with
  | (t, inl e) =>
      if isinstance_Exception e
      then let '(t', r) := handler e in (t ++ t', r)
      else (t, inl e)
  | (t, inr a) => (t, inr a)
  end.

#[global] Instance script_ret : MRet Script := @ret.
#[global] Instance script_bind : MBind Script := λ A B k m, bind m k.

(** [print(s)] *)
Definition print (s : string) : Script unit := emit (EvPrint s).

(** [load_dotenv()]: returns the environment as it is afterwards. *)
Definition load_dotenv (w : World) : Script (gmap string string) :=
  call EvLoadDotenv (inr (dotenv_effect w (os_environ w))).

(** [os.getenv(name)] *)
Definition getenv (env : gmap string string) (name : string)
    : Script (option string) :=
  call (EvGetenv name) (inr (env !! name)).

(** Modelled from the spec: the body of the [ClobClient] constructor,
    which belongs to [py_clob_client] and is not in the repository.
    Section 4.1, step 2: the call "binds endpoint, chain id, signing
    key, signature-scheme selector, and funding address into a client
    handle"; it "must not itself perform network I/O (construction is
    local); failures here are local programming/config errors".  So
    [ClobClient(host=..., chain_id=..., key=..., signature_type=...,
    funder=...)] is one local event that hands back a client holding
    its arguments and no credentials yet, or raises. *)
Definition ClobClient_new (w : World) (args : ClobArgs) : Script ClobClient :=
  call (EvClobClient args)
       (match init_raises (backend w) args with
        | Some e => inl e
        | None => inr (mkClient args None)
        end).

(** [client.create_or_derive_api_creds()] *)
Definition create_or_derive_api_creds (w : World) (c : ClobClient)
    : Script (option ApiCreds) :=
  call (EvCreateOrDerive c) (create_or_derive_result (backend w) c).

(** [client.set_api_creds(creds)]: the client now carries [creds]. *)
Definition set_api_creds (w : World) (c : ClobClient) (creds : ApiCreds)
    : Script ClobClient :=
  call (EvSetApiCreds c creds)
       (match set_api_creds_raises (backend w) c creds with
        | Some e => inl e
        | None => inr (mkClient (client_args c) (Some creds))
        end).

(** [client.get_api_keys()] *)
Definition get_api_keys (w : World) (c : ClobClient) : Script pyval :=
  call (EvGetApiKeys c) (get_api_keys_result (backend w) c).

(** [len(v)] as a step of the script. *)
Definition len (v : pyval) : Script nat := ([], py_len v).

(** ** The script *)

Definition ENV_PRIVATE_KEY : string := "POLYMARKET_TRADER_PRIVATE_KEY".
Definition ENV_WALLET_ADDRESS : string := "POLYMARKET_TRADER_ADDRESS".

(** The message of the [ValueError] of line 14. *)
Definition config_error_message : string :=
  "请在 .env 中配置 POLYMARKET_TRADER_PRIVATE_KEY 和 POLYMARKET_TRADER_ADDRESS".

Definition config_error : PyExc := mkExc ValueError config_error_message.

(** The constructor call of lines 17-23. *)
Definition client_kwargs (PRIVATE_KEY WALLET_ADDRESS : option string)
    : ClobArgs :=
  {| host := "https://clob.polymarket.com";
     chain_id := 137;
     key := PRIVATE_KEY;
     signature_type := 0;
     funder := WALLET_ADDRESS |}.

Definition key_line (c : ApiCreds) : string := "API_KEY      = " +:+ api_key c.
Definition secret_line (c : ApiCreds) : string :=
  "API_SECRET   = " +:+ api_secret c.
Definition passphrase_line (c : ApiCreds) : string :=
  "API_PASSPHRASE = " +:+ api_passphrase c.

Definition verified_line (n : nat) : string :=
  "✅ 验证成功！当前账户共有 " +:+ str_of_nat n +:+ " 个 API Key".

Definition warning_line (e : PyExc) : string :=
  "⚠️ 验证失败: " +:+ exc_str e.

(** Lines 41-46: the guarded self-check. *)
Definition verify (w : World) (client : ClobClient) : Script unit :=
  try_except_Exception
    (keys ← get_api_keys w client;
     n ← len keys;
     print (verified_line n))
    (λ e, print (warning_line e)).

(** [obj.attr] on what [create_or_derive_api_creds] returned: an
    [ApiCreds] has the three attributes, [None] has none.  The result
    is the object whose attribute is read. *)
Definition attribute_of (obj : option ApiCreds) (attr : string)
    : Script ApiCreds :=
  match obj with
  | Some creds => ret creds
  | None =>
      raise (mkExc AttributeError
               ("'NoneType' object has no attribute '" +:+ attr +:+ "'"))
  end.

(** Lines 29-36: the credential print block.  Each f-string reads its
    attribute before anything of that line is printed.  The block hands
    back the object it has printed, which is what line 39 passes on. *)
Definition report (api_creds : option ApiCreds) : Script ApiCreds :=
  print (nl +:+ str_mul "=" 50);;
  print "✅ API 凭证生成成功！请妥善保存以下信息：";;
  print (str_mul "=" 50);;
  creds ← attribute_of api_creds "api_key";
  print (key_line creds);;
  creds ← attribute_of api_creds "api_secret";
  print (secret_line creds);;
  creds ← attribute_of api_creds "api_passphrase";
  print (passphrase_line creds);;
  print (str_mul "=" 50);;
  ret creds.

(** Lines 16-46: everything after the configuration check. *)
Definition bootstrap (w : World) (PRIVATE_KEY WALLET_ADDRESS : option string)
    : Script unit :=
  client ← ClobClient_new w (client_kwargs PRIVATE_KEY WALLET_ADDRESS);
  print "正在生成 API 凭证...";;
  api_creds ← create_or_derive_api_creds w client;
  api_creds ← report api_creds;
  client ← set_api_creds w client api_creds;
  print (nl +:+ "正在验证凭证...");;
  verify w client.

(** Line 13: [not PRIVATE_KEY or not WALLET_ADDRESS]. *)
Definition config_invalid (PRIVATE_KEY WALLET_ADDRESS : option string) : bool :=
  negb (truthy PRIVATE_KEY) || negb (truthy WALLET_ADDRESS).

(** The whole module body. *)
Definition main (w : World) : Script unit :=
  env ← load_dotenv w;
  PRIVATE_KEY ← getenv env ENV_PRIVATE_KEY;
  WALLET_ADDRESS ← getenv env ENV_WALLET_ADDRESS;
  if config_invalid PRIVATE_KEY WALLET_ADDRESS
  then raise config_error
  else bootstrap w PRIVATE_KEY WALLET_ADDRESS.

(** ** Observations on a run *)

Definition trace (w : World) : list event := (main w).1.

(** How the process ends: [inr ()] when the interpreter reaches the end
    of the file (exit status zero), [inl e] when [e] propagates to the
    top level (traceback, failure status). *)
Definition outcome (w : World) : PyExc + unit := (main w).2.

(** The values the script reads after [load_dotenv()]. *)
Definition PRIVATE_KEY_of (w : World) : option string :=
  dotenv_effect w (os_environ w) !! ENV_PRIVATE_KEY.
Definition WALLET_ADDRESS_of (w : World) : option string :=
  dotenv_effect w (os_environ w) !! ENV_WALLET_ADDRESS.

(** The arguments of the successive [print] calls. *)
Definition printed (t : list event) : list string :=
  omap (λ ev, match ev with EvPrint s => Some s | _ => None end) t.

(** What ends up on standard output: each [print] writes its argument
    and a newline. *)
Definition stdout (t : list event) : string :=
  foldr (λ s acc, s +:+ nl +:+ acc) "" (printed t).

(** The text cut at newlines ([str.splitlines]); [cur] is the line being
    read, reversed. *)
Fixpoint splitlines_aux (cur : list ascii) (s : string) : list string :=
  match s with
  | "" => match cur with
          | [] => []
          | _ => [String.string_of_list_ascii (rev cur)]
          end
  | String c s' =>
      if Ascii.eqb c "010"%char
      then String.string_of_list_ascii (rev cur) :: splitlines_aux [] s'
      else splitlines_aux (c :: cur) s'
  end.

Definition splitlines (s : string) : list string := splitlines_aux [] s.

Definition stdout_lines (w : World) : list string :=
  splitlines (stdout (trace w)).

(** Calls into [py_clob_client]: the constructor and the three
    methods. *)
Definition is_client_call (ev : event) : bool :=
  match ev with
  | EvClobClient _ | EvCreateOrDerive _ | EvSetApiCreds _ _
  | EvGetApiKeys _ => true
  | _ => false
  end.

(** Modelled from the spec: which calls into [py_clob_client] go over
    the network; the library is not in the repository.  Section 6 lists
    the remote API boundary as "(a) create-or-derive credentials for a
    signer, (b) list API keys for an authenticated signer"; section
    4.1 has construction local (step 2) and [set_api_creds] a binding
    of the credentials onto the client (step 5). *)
Definition is_network_call (ev : event) : bool :=
  match ev with
  | EvCreateOrDerive _ | EvGetApiKeys _ => true
  | _ => false
  end.

(** A credential line is one that starts with the [API_] label
    prefix. *)
Definition is_credential_line (s : string) : bool := String.prefix "API_" s.

(** [needle in hay] *)
Fixpoint str_contains (needle hay : string) : bool :=
  String.prefix needle hay ||
  match hay with
  | "" => false
  | String _ hay' => str_contains needle hay'
  end.

(** ** Sample worlds *)

Definition sample_creds : ApiCreds := mkCreds "K1" "S1" "P1".

Definition sample_backend (keys : PyExc + pyval) : ClobBackend :=
  {| init_raises := λ _, None;
     create_or_derive_result := λ _, inr (Some sample_creds);
     set_api_creds_raises := λ _ _, None;
     get_api_keys_result := λ _, keys |}.

Definition sample_env : gmap string string :=
  <[ENV_PRIVATE_KEY := "0xabc"]> (<[ENV_WALLET_ADDRESS := "0xdef"]> ∅).

Definition sample_world (keys : PyExc + pyval) : World :=
  {| os_environ := sample_env;
     dotenv_effect := dotenv_no_override [];
     backend := sample_backend keys |}.

(** A world where only the private key is configured. *)
Definition world_without_address : World :=
  {| os_environ := <[ENV_PRIVATE_KEY := "0xabc"]> ∅;
     dotenv_effect := dotenv_no_override [];
     backend := sample_backend (inr (PyList [])) |}.

(** A world whose [.env] file holds whitespace-only values. *)
Definition world_with_blanks : World :=
  {| os_environ := ∅;
     dotenv_effect :=
       dotenv_no_override [(ENV_PRIVATE_KEY, "   "); (ENV_WALLET_ADDRESS, " ")];
     backend := sample_backend (inr (PyList [])) |}.

Definition remote_error : PyExc :=
  mkExc (ExceptionSubclass "PolyApiException") "status_code=401".

(** A world where the remote end refuses to create or derive
    credentials. *)
Definition world_create_fails : World :=
  {| os_environ := sample_env;
     dotenv_effect := dotenv_no_override [];
     backend :=
       {| init_raises := λ _, None;
          create_or_derive_result := λ _, inl remote_error;
          set_api_creds_raises := λ _ _, None;
          get_api_keys_result := λ _, inr (PyList []) |} |}.

(** A world where binding the credentials on the client fails. *)
Definition world_set_fails : World :=
  {| os_environ := sample_env;
     dotenv_effect := dotenv_no_override [];
     backend :=
       {| init_raises := λ _, None;
          create_or_derive_result := λ _, inr (Some sample_creds);
          set_api_creds_raises := λ _ _, Some remote_error;
          get_api_keys_result := λ _, inr (PyList []) |} |}.

(** ** Vocabulary for the statements *)

(** The events every run starts with (lines 6, 10 and 11). *)
Definition startup : list event :=
  [EvLoadDotenv; EvGetenv ENV_PRIVATE_KEY; EvGetenv ENV_WALLET_ADDRESS].

(** A configuration value that is absent or the empty string. *)
Definition unset_or_empty (v : option string) : Prop :=
  v = None ∨ v = Some "".

(** The constructor arguments of the run in [w]. *)
Definition kwargs_of (w : World) : ClobArgs :=
  client_kwargs (PRIVATE_KEY_of w) (WALLET_ADDRESS_of w).

(** The client as the constructor returns it, and after
    [set_api_creds]. *)
Definition fresh_client (w : World) : ClobClient := mkClient (kwargs_of w) None.
Definition bound_client (w : World) (c : ApiCreds) : ClobClient :=
  mkClient (kwargs_of w) (Some c).

(** The points a run can get to, in terms of what the world answers. *)
Definition config_ok (w : World) : Prop :=
  truthy (PRIVATE_KEY_of w) = true ∧ truthy (WALLET_ADDRESS_of w) = true.
Definition client_built (w : World) : Prop :=
  config_ok w ∧ init_raises (backend w) (kwargs_of w) = None.
Definition creds_obtained (w : World) (c : ApiCreds) : Prop :=
  client_built w ∧
  create_or_derive_result (backend w) (fresh_client w) = inr (Some c).
Definition creds_bound (w : World) (c : ApiCreds) : Prop :=
  creds_obtained w c ∧
  set_api_creds_raises (backend w) (fresh_client w) c = None.

(** No [print] so far showed a credential line. *)
Definition no_credential_line (l : list string) : Prop :=
  Forall (λ s, is_credential_line s = false) l.

(** The message names a required variable exactly when that variable is
    the missing one. *)
Definition names_exactly_the_missing (w : World) (msg : string) : Prop :=
  (str_contains ENV_PRIVATE_KEY msg = true ↔ unset_or_empty (PRIVATE_KEY_of w))
  ∧ (str_contains ENV_WALLET_ADDRESS msg = true
     ↔ unset_or_empty (WALLET_ADDRESS_of w)).

(** The world [w] in which [set_api_creds] returns normally and
    [get_api_keys] raises [e] instead. *)
Definition raise_in_get_api_keys (w : World) (e : PyExc) : World :=
  {| os_environ := os_environ w;
     dotenv_effect := dotenv_effect w;
     backend :=
       {| init_raises := init_raises (backend w);
          create_or_derive_result := create_or_derive_result (backend w);
          set_api_creds_raises := λ _ _, None;
          get_api_keys_result := λ _, inl e |} |}.

(** The trace up to the credential request, up to the binding of the
    credentials, and up to the start of the self-check. *)
Definition until_create (w : World) : list event :=
  startup ++ [EvClobClient (kwargs_of w); EvPrint "正在生成 API 凭证...";
              EvCreateOrDerive (fresh_client w)].
Definition until_set (w : World) (c : ApiCreds) : list event :=
  until_create w ++ (report (Some c)).1 ++ [EvSetApiCreds (fresh_client w) c].
Definition until_verify (w : World) (c : ApiCreds) : list event :=
  until_set w c ++ [EvPrint (nl +:+ "正在验证凭证...")].

(** Where the straight-line part of a run stops: at one of the five
    places an exception can leave it, or at the self-check. *)
Inductive stage (w : World) : Prop :=
| StopConfig :
    config_invalid (PRIVATE_KEY_of w) (WALLET_ADDRESS_of w) = true → stage w
| StopInit (e : PyExc) :
    config_ok w → init_raises (backend w) (kwargs_of w) = Some e → stage w
| StopCreate (e : PyExc) :
    client_built w →
    create_or_derive_result (backend w) (fresh_client w) = inl e → stage w
| StopReport :
    client_built w →
    create_or_derive_result (backend w) (fresh_client w) = inr None → stage w
| StopSet (c : ApiCreds) (e : PyExc) :
    creds_obtained w c →
    set_api_creds_raises (backend w) (fresh_client w) c = Some e → stage w
| ReachVerify (c : ApiCreds) : creds_bound w c → stage w.

(** A world where the remote end answers but the library cannot read
    the answer and returns [None]. *)
Definition world_create_returns_None : World :=
  {| os_environ := sample_env;
     dotenv_effect := dotenv_no_override [];
     backend :=
       {| init_raises := λ _, None;
          create_or_derive_result := λ _, inr None;
          set_api_creds_raises := λ _ _, None;
          get_api_keys_result := λ _, inr (PyList []) |} |}.

(** A world with whitespace-only values, which the constructor
    rejects. *)
Definition world_blanks_rejected : World :=
  {| os_environ := ∅;
     dotenv_effect :=
       dotenv_no_override [(ENV_PRIVATE_KEY, "   "); (ENV_WALLET_ADDRESS, " ")];
     backend :=
       {| init_raises := λ _, Some (mkExc ValueError "invalid private key");
          create_or_derive_result := λ _, inr (Some sample_creds);
          set_api_creds_raises := λ _ _, None;
          get_api_keys_result := λ _, inr (PyList []) |} |}.

(** The [AttributeError] of line 33 when [api_creds] is [None]. *)
Definition no_api_key_attribute : PyExc :=
  mkExc AttributeError "'NoneType' object has no attribute 'api_key'".

(** The trace of a run in which [create_or_derive_api_creds] returned
    [None]: the three lines of the success banner follow the call. *)
Definition until_report_fails (w : World) : list event :=
  startup ++ [EvClobClient (kwargs_of w); EvPrint "正在生成 API 凭证...";
              EvCreateOrDerive (fresh_client w);
              EvPrint (nl +:+ str_mul "=" 50);
              EvPrint "✅ API 凭证生成成功！请妥善保存以下信息：";
              EvPrint (str_mul "=" 50)].

(** A world where the constructor rejects its arguments. *)
Definition world_init_fails : World :=
  {| os_environ := sample_env;
     dotenv_effect := dotenv_no_override [];
     backend :=
       {| init_raises := λ _, Some (mkExc ValueError "invalid private key");
          create_or_derive_result := λ _, inr (Some sample_creds);
          set_api_creds_raises := λ _ _, None;
          get_api_keys_result := λ _, inr (PyList []) |} |}.

(** The same scenario as [sample_world] under another key and
    address. *)
Definition sample_world_other_wallet (keys : PyExc + pyval) : World :=
  {| os_environ :=
       <[ENV_PRIVATE_KEY := "0x123"]> (<[ENV_WALLET_ADDRESS := "0x456"]> ∅);
     dotenv_effect := dotenv_no_override [];
     backend := sample_backend keys |}.

(** The call [ev] into the client library was answered by raising
    [e]. *)
Definition raised_by (w : World) (ev : event) (e : PyExc) : Prop :=
  match ev with
  | EvClobClient args => init_raises (backend w) args = Some e
  | EvCreateOrDerive cl => create_or_derive_result (backend w) cl = inl e
  | EvSetApiCreds cl c => set_api_creds_raises (backend w) cl c = Some e
  | EvGetApiKeys cl => get_api_keys_result (backend w) cl = inl e
  | _ => False
  end.

(** Reads of the configuration: [load_dotenv()] and [os.getenv]. *)
Definition is_env_read (ev : event) : bool :=
  match ev with
  | EvLoadDotenv | EvGetenv _ => true
  | _ => false
  end.

(** The three credential lines of lines 33-35. *)
Definition credential_lines (c : ApiCreds) : list string :=
  [key_line c; secret_line c; passphrase_line c].

(** * Properties *)

(** ** Python helpers *)

Lemma truthy_false_iff (v : option string) :
  truthy v = false ↔ unset_or_empty v.
Proof.
  unfold unset_or_empty. destruct v as [[|a s]|]; simpl; split;
    intros H; try done; auto; destruct H as [H|H]; discriminate H.
Qed.

Lemma truthy_true_iff (v : option string) :
  truthy v = true ↔ ¬ unset_or_empty v.
Proof.
  rewrite <- truthy_false_iff. destruct (truthy v); split; congruence.
Qed.

Lemma config_invalid_iff (pk wa : option string) :
  config_invalid pk wa = true ↔ unset_or_empty pk ∨ unset_or_empty wa.
Proof.
  unfold config_invalid. rewrite <- !truthy_false_iff.
  destruct (truthy pk), (truthy wa); simpl; intuition congruence.
Qed.

Lemma config_ok_iff (w : World) :
  config_ok w ↔ config_invalid (PRIVATE_KEY_of w) (WALLET_ADDRESS_of w) = false.
Proof.
  unfold config_ok, config_invalid.
  destruct (truthy (PRIVATE_KEY_of w)), (truthy (WALLET_ADDRESS_of w));
    simpl; intuition congruence.
Qed.

Lemma to_uint_not_Nil (n : nat) : Nat.to_uint n ≠ Decimal.Nil.
Proof.
  intros H. pose proof (Unsigned.of_to n) as E. rewrite H in E.
  simpl in E. subst n. discriminate H.
Qed.

(** The decimal numeral [str] prints reads back as the same number. *)
Lemma nat_of_str_of_nat (n : nat) : nat_of_str (str_of_nat n) = Some n.
Proof.
  unfold nat_of_str, str_of_nat.
  rewrite NilZero.usu by apply to_uint_not_Nil.
  simpl. f_equal. apply Unsigned.of_to.
Qed.

Lemma str_of_nat_inj (m n : nat) : str_of_nat m = str_of_nat n → m = n.
Proof.
  intros H. apply (f_equal nat_of_str) in H.
  rewrite !nat_of_str_of_nat in H. congruence.
Qed.

(** ** The definitions on concrete inputs *)

Example truthy_values :
  truthy None = false ∧ truthy (Some "") = false
  ∧ truthy (Some " ") = true ∧ truthy (Some "0xabc") = true.
Proof. repeat split. Qed.

Example str_mul_rule : str_mul "=" 3 = "===" ∧ String.length (str_mul "=" 50) = 50.
Proof. split; reflexivity. Qed.

Example str_of_nat_values :
  str_of_nat 0 = "0" ∧ str_of_nat 2 = "2" ∧ str_of_nat 120 = "120".
Proof. repeat split. Qed.

Example py_len_values :
  py_len (PyList [PyStr "a"; PyStr "b"]) = inr 2
  ∧ py_len (PyDict [("apiKeys", PyList [PyStr "a"; PyStr "b"])]) = inr 1
  ∧ py_len (PyStr "凭证") = inr 2
  ∧ (∃ e, py_len PyNone = inl e ∧ isinstance_Exception e = true).
Proof. repeat split. by eexists. Qed.

Example splitlines_values :
  splitlines ("a" +:+ nl +:+ nl +:+ "b" +:+ nl) = ["a"; ""; "b"]
  ∧ splitlines "" = [].
Proof. split; reflexivity. Qed.

Example dotenv_keeps_the_environment :
  dotenv_no_override [("A", "file"); ("B", "file")] (<["A" := "env"]> ∅)
  !! "A" = Some "env"
  ∧ dotenv_no_override [("A", "file"); ("B", "file")] (<["A" := "env"]> ∅)
    !! "B" = Some "file".
Proof. split; vm_compute; reflexivity. Qed.

Example dotenv_last_assignment_wins :
  dotenv_no_override [("A", "first"); ("A", "second")] ∅ !! "A"
  = Some "second".
Proof. vm_compute. reflexivity. Qed.

Example sample_run_without_credentials :
  main world_create_returns_None
  = (until_report_fails world_create_returns_None,
     inl no_api_key_attribute).
Proof. vm_compute. reflexivity. Qed.

Example sample_run_output :
  stdout_lines (sample_world (inr (PyList [PyStr "a"; PyStr "b"])))
  = ["正在生成 API 凭证..."; "";
     "==================================================";
     "✅ API 凭证生成成功！请妥善保存以下信息：";
     "==================================================";
     "API_KEY      = K1"; "API_SECRET   = S1"; "API_PASSPHRASE = P1";
     "=================================================="; "";
     "正在验证凭证..."; "✅ 验证成功！当前账户共有 2 个 API Key"].
Proof. vm_compute. reflexivity. Qed.

Example sample_run_interrupted :
  outcome (sample_world (inl (mkExc KeyboardInterrupt "")))
  = inl (mkExc KeyboardInterrupt "").
Proof. vm_compute. reflexivity. Qed.

(** ** The run, stage by stage *)

Lemma stage_of (w : World) : stage w.
Proof.
  destruct (config_invalid (PRIVATE_KEY_of w) (WALLET_ADDRESS_of w)) eqn:Hc.
  { by apply StopConfig. }
  apply config_ok_iff in Hc.
  destruct (init_raises (backend w) (kwargs_of w)) as [e|] eqn:Hi.
  { by eapply StopInit. }
  destruct (create_or_derive_result (backend w) (fresh_client w))
    as [e|[c|]] eqn:Hr.
  { by eapply StopCreate. }
  2:{ by eapply StopReport. }
  destruct (set_api_creds_raises (backend w) (fresh_client w) c)
    as [e|] eqn:Hs.
  { by eapply StopSet. }
  by eapply (ReachVerify w c).
Qed.

Lemma run_config_missing (w : World) :
  config_invalid (PRIVATE_KEY_of w) (WALLET_ADDRESS_of w) = true →
  main w = (startup, inl config_error).
Proof.
  intros H. unfold main, load_dotenv, getenv, call, mbind, script_bind, bind.
  unfold PRIVATE_KEY_of, WALLET_ADDRESS_of in H. rewrite H. reflexivity.
Qed.

Lemma run_config_ok (w : World) :
  config_ok w →
  main w = (startup ++ (bootstrap w (PRIVATE_KEY_of w) (WALLET_ADDRESS_of w)).1,
            (bootstrap w (PRIVATE_KEY_of w) (WALLET_ADDRESS_of w)).2).
Proof.
  intros H%config_ok_iff.
  unfold main, load_dotenv, getenv, call, mbind, script_bind, bind.
  unfold PRIVATE_KEY_of, WALLET_ADDRESS_of in *. rewrite H.
  by destruct (bootstrap _ _ _).
Qed.

Lemma run_init_raises (w : World) (e : PyExc) :
  config_ok w → init_raises (backend w) (kwargs_of w) = Some e →
  main w = (startup ++ [EvClobClient (kwargs_of w)], inl e).
Proof.
  intros Hc Hi. rewrite (run_config_ok w Hc).
  unfold bootstrap, ClobClient_new, call, mbind, script_bind, bind.
  fold (kwargs_of w). by rewrite Hi.
Qed.

Lemma run_create_raises (w : World) (e : PyExc) :
  client_built w →
  create_or_derive_result (backend w) (fresh_client w) = inl e →
  main w = (until_create w, inl e).
Proof.
  intros [Hc Hi] Hr. rewrite (run_config_ok w Hc).
  unfold bootstrap, ClobClient_new, create_or_derive_api_creds, call, print,
    emit, mbind, script_bind, bind.
  fold (kwargs_of w). rewrite Hi. fold (fresh_client w). by rewrite Hr.
Qed.

Lemma run_create_None (w : World) :
  client_built w →
  create_or_derive_result (backend w) (fresh_client w) = inr None →
  main w = (until_report_fails w, inl no_api_key_attribute).
Proof.
  intros [Hc Hi] Hr. rewrite (run_config_ok w Hc).
  unfold bootstrap, ClobClient_new, create_or_derive_api_creds, call, print,
    emit, mbind, script_bind, bind.
  fold (kwargs_of w). rewrite Hi. fold (fresh_client w). by rewrite Hr.
Qed.

Lemma run_set_raises (w : World) (c : ApiCreds) (e : PyExc) :
  creds_obtained w c →
  set_api_creds_raises (backend w) (fresh_client w) c = Some e →
  main w = (until_set w c, inl e).
Proof.
  intros [[Hc Hi] Hr] Hs. rewrite (run_config_ok w Hc).
  unfold bootstrap, ClobClient_new, create_or_derive_api_creds,
    set_api_creds, call, print, emit, mbind, script_bind, bind.
  fold (kwargs_of w). rewrite Hi. fold (fresh_client w). rewrite Hr.
  simpl. by rewrite Hs.
Qed.

Lemma run_verify (w : World) (c : ApiCreds) :
  creds_bound w c →
  main w = (until_verify w c ++ (verify w (bound_client w c)).1,
            (verify w (bound_client w c)).2).
Proof.
  intros [[[Hc Hi] Hr] Hs]. rewrite (run_config_ok w Hc).
  unfold bootstrap, ClobClient_new, create_or_derive_api_creds,
    set_api_creds, call, print, emit, mbind, script_bind, bind.
  fold (kwargs_of w). rewrite Hi. fold (fresh_client w). rewrite Hr.
  simpl. rewrite Hs. simpl. fold (bound_client w c).
  by destruct (verify w (bound_client w c)).
Qed.

(** ** The self-check *)

Ltac step_verify :=
  unfold verify, try_except_Exception, get_api_keys, len, call, print, emit,
    mbind, script_bind, bind.

Lemma verify_caught (w : World) (cl : ClobClient) (e : PyExc) :
  get_api_keys_result (backend w) cl = inl e →
  isinstance_Exception e = true →
  verify w cl = ([EvGetApiKeys cl; EvPrint (warning_line e)], inr tt).
Proof. intros Hg He. step_verify. by rewrite Hg, He. Qed.

Lemma verify_escapes (w : World) (cl : ClobClient) (e : PyExc) :
  get_api_keys_result (backend w) cl = inl e →
  isinstance_Exception e = false →
  verify w cl = ([EvGetApiKeys cl], inl e).
Proof. intros Hg He. step_verify. by rewrite Hg, He. Qed.

Lemma verify_counts (w : World) (cl : ClobClient) (v : pyval) (n : nat) :
  get_api_keys_result (backend w) cl = inr v →
  py_len v = inr n →
  verify w cl = ([EvGetApiKeys cl; EvPrint (verified_line n)], inr tt).
Proof. intros Hg Hn. step_verify. by rewrite Hg, Hn. Qed.

Lemma verify_len_fails (w : World) (cl : ClobClient) (v : pyval) (e : PyExc) :
  get_api_keys_result (backend w) cl = inr v →
  py_len v = inl e →
  verify w cl = ([EvGetApiKeys cl; EvPrint (warning_line e)], inr tt).
Proof.
  intros Hg Hn. step_verify. rewrite Hg, Hn.
  destruct v; simpl in Hn; try discriminate Hn. by injection Hn as <-.
Qed.

(** Whatever the remote end answers, the self-check calls
    [get_api_keys] once and prints at most one line, which is not a
    credential line. *)
Lemma verify_trace (w : World) (cl : ClobClient) :
  ∃ l, (verify w cl).1 = EvGetApiKeys cl :: map EvPrint l
       ∧ no_credential_line l.
Proof.
  destruct (get_api_keys_result (backend w) cl) as [e|v] eqn:Hg.
  - destruct (isinstance_Exception e) eqn:He.
    + rewrite (verify_caught w cl e Hg He). exists [warning_line e].
      split; [done|]. by repeat constructor.
    + rewrite (verify_escapes w cl e Hg He). exists []. split; [done|].
      constructor.
  - destruct (py_len v) as [e|n] eqn:Hn.
    + rewrite (verify_len_fails w cl v e Hg Hn). exists [warning_line e].
      split; [done|]. by repeat constructor.
    + rewrite (verify_counts w cl v n Hg Hn). exists [verified_line n].
      split; [done|]. by repeat constructor.
Qed.

(** ** Which runs perform which call *)

Lemma printed_app (t1 t2 : list event) :
  printed (t1 ++ t2) = printed t1 ++ printed t2.
Proof. unfold printed. apply omap_app. Qed.

Lemma printed_map_EvPrint (l : list string) : printed (map EvPrint l) = l.
Proof. induction l as [|s l IH]; simpl; [done|]. by f_equal. Qed.

Ltac trace_at_stage w :=
  unfold trace;
  destruct (stage_of w)
    as [?H|?e ?Hc ?Hi|?e ?Hb ?Hr|?Hb ?Hr|?c ?e ?Ho ?Hs|?c ?Hb];
  [ rewrite (run_config_missing w) by assumption
  | erewrite (run_init_raises w) by eassumption
  | erewrite (run_create_raises w) by eassumption
  | rewrite (run_create_None w) by assumption
  | erewrite (run_set_raises w) by eassumption
  | rewrite (run_verify w _ ltac:(eassumption));
    let l := fresh "l" in
    let Hl := fresh "Hl" in
    let Hn := fresh "Hn" in
    match goal with
    | |- context [verify w ?cl] =>
        destruct (verify_trace w cl) as (l & Hl & Hn); rewrite ?Hl
    end ];
  cbn [fst snd].

Ltac no_such_event :=
  repeat match goal with
         | H : _ ∨ _ |- _ => destruct H as [H|H]
         | H : In _ (map EvPrint _) |- _ =>
             apply in_map_iff in H; destruct H as (? & H & _)
         | H : False |- _ => destruct H
         | H : @eq event _ _ |- _ => first [discriminate H | injection H as ? ?| injection H as ?]
         end.

Lemma reaches_create (w : World) (cl : ClobClient) :
  In (EvCreateOrDerive cl) (trace w) → client_built w ∧ cl = fresh_client w.
Proof.
  trace_at_stage w; intros Hin;
    unfold until_verify, until_set, until_create, until_report_fails,
      startup in Hin;
    rewrite ?in_app_iff in Hin; simpl in Hin; no_such_event; subst;
    try done.
  - by destruct Ho.
  - by destruct Hb as [[? ?] ?].
Qed.

Lemma reaches_set (w : World) (cl : ClobClient) (c : ApiCreds) :
  In (EvSetApiCreds cl c) (trace w) → creds_obtained w c ∧ cl = fresh_client w.
Proof.
  trace_at_stage w; intros Hin;
    unfold until_verify, until_set, until_create, until_report_fails,
      startup in Hin;
    rewrite ?in_app_iff in Hin; simpl in Hin; no_such_event; subst;
    try done.
  by destruct Hb.
Qed.

Lemma reaches_verify (w : World) (cl : ClobClient) :
  In (EvGetApiKeys cl) (trace w) →
  ∃ c, creds_bound w c ∧ cl = bound_client w c.
Proof.
  trace_at_stage w; intros Hin;
    unfold until_verify, until_set, until_create, until_report_fails,
      startup in Hin;
    rewrite ?in_app_iff in Hin; simpl in Hin; no_such_event; subst.
  by eexists.
Qed.

Lemma filter_no_credential_line (l : list string) :
  no_credential_line l → List.filter is_credential_line l = [].
Proof.
  induction 1 as [|s l Hs _ IH]; simpl; [done|]. by rewrite Hs.
Qed.

Lemma last_two {A} (l : list A) (a b : A) : last (l ++ [a; b]) = Some b.
Proof.
  change (l ++ [a; b]) with (l ++ ([a] ++ [b])).
  rewrite app_assoc. apply last_snoc.
Qed.

(** After a successful configuration check the next event is the
    constructor call, made once; if it returns, the banner and the
    credential request follow. *)
Lemma trace_after_config (w : World) :
  config_ok w →
  ∃ rest,
    trace w = startup ++ EvClobClient (kwargs_of w) :: rest
    ∧ (∀ args, ¬ In (EvClobClient args) rest)
    ∧ (init_raises (backend w) (kwargs_of w) = None →
       ∃ rest', rest = EvPrint "正在生成 API 凭证..."
                       :: EvCreateOrDerive (fresh_client w) :: rest').
Proof.
  intros Hok. trace_at_stage w.
  - apply config_ok_iff in Hok. congruence.
  - exists []. split; [done|]. split; [intros ? []|]. congruence.
  - eexists. split; [reflexivity|]. split; [|by eexists].
    intros args Hin. simpl in Hin. no_such_event.
  - eexists. split; [reflexivity|]. split; [|by eexists].
    intros args Hin. simpl in Hin. no_such_event.
  - eexists. unfold until_set, until_create. rewrite <- !app_assoc.
    split; [reflexivity|]. split; [|by eexists].
    intros args Hin. simpl in Hin. no_such_event.
  - eexists. unfold until_verify, until_set, until_create.
    rewrite <- !app_assoc.
    split; [reflexivity|]. split; [|by eexists].
    intros args Hin. simpl in Hin. no_such_event.
Qed.

(** [except Exception] lets a [KeyboardInterrupt] raised during the
    self-check through. *)
Lemma interrupt_during_verification_escapes (w : World) (c : ApiCreds) (e : PyExc) :
  creds_bound w c →
  get_api_keys_result (backend w) (bound_client w c) = inl e →
  exc_cls e = KeyboardInterrupt →
  outcome w = inl e.
Proof.
  intros Hb Hg He. unfold outcome.
  rewrite (run_verify w c Hb), (verify_escapes w _ e Hg); [done|].
  unfold isinstance_Exception. by rewrite He.
Qed.

(** An answer that has no [len] is reported as a failed check too. *)
Lemma verification_of_None_is_a_warning (w : World) (c : ApiCreds) :
  creds_bound w c →
  get_api_keys_result (backend w) (bound_client w c) = inr PyNone →
  outcome w = inr tt
  ∧ last (printed (trace w))
    = Some (warning_line
              (mkExc TypeError "object of type 'NoneType' has no len()")).
Proof.
  intros Hb Hg. unfold outcome, trace.
  rewrite (run_verify w c Hb).
  rewrite (verify_len_fails w _ PyNone _ Hg eq_refl). cbn [fst snd].
  split; [done|]. rewrite printed_app. apply last_snoc.
Qed.

(** * The claims *)

(** C1.  When [POLYMARKET_TRADER_PRIVATE_KEY] or
    [POLYMARKET_TRADER_ADDRESS] is absent or the empty string, the run
    ends with the configuration error (a [ValueError]) right after the
    two [os.getenv] reads: the client is never constructed and none of
    [create_or_derive_api_creds], [set_api_creds], [get_api_keys] is
    called. *)
Theorem missing_config_fails_fast (w : World) :
  unset_or_empty (PRIVATE_KEY_of w) ∨ unset_or_empty (WALLET_ADDRESS_of w) →
  outcome w = inl config_error
  ∧ exc_cls config_error = ValueError
  ∧ trace w = startup
  ∧ Forall (λ ev, is_client_call ev = false) (trace w).
Proof.
  intros H%config_invalid_iff. unfold outcome, trace.
  rewrite (run_config_missing w H). simpl.
  repeat split. by repeat constructor.
Qed.

Lemma missing_config_fails_fast_witness :
  outcome world_without_address = inl config_error
  ∧ exc_cls config_error = ValueError
  ∧ trace world_without_address = startup
  ∧ Forall (λ ev, is_client_call ev = false) (trace world_without_address).
Proof.
  apply (missing_config_fails_fast world_without_address).
  right. left. vm_compute. reflexivity.
Defined.

(** C2.  Once [create_or_derive_api_creds] has returned a credential
    set, the three fields are printed verbatim behind their labels, each
    by exactly one [print], in the order key, secret, passphrase: the
    three lines are consecutive, no other [print] of the run shows a
    credential line, and so the credential lines of the whole run are
    these three, in this order. *)
Theorem credentials_printed_once_in_order
    (w : World) (cl : ClobClient) (c : ApiCreds) :
  In (EvCreateOrDerive cl) (trace w) →
  create_or_derive_result (backend w) cl = inr (Some c) →
  (∃ before after,
     printed (trace w)
     = before
       ++ ["API_KEY      = " +:+ api_key c;
           "API_SECRET   = " +:+ api_secret c;
           "API_PASSPHRASE = " +:+ api_passphrase c]
       ++ after
     ∧ no_credential_line before
     ∧ no_credential_line after)
  ∧ List.filter is_credential_line (printed (trace w))
    = ["API_KEY      = " +:+ api_key c;
       "API_SECRET   = " +:+ api_secret c;
       "API_PASSPHRASE = " +:+ api_passphrase c].
Proof.
  intros [Hcl ->]%reaches_create Hr.
  assert (creds_obtained w c) as Ho by (by split).
  clear Hcl Hr.
  assert (∃ before after,
     printed (trace w)
     = before ++ [key_line c; secret_line c; passphrase_line c] ++ after
     ∧ no_credential_line before ∧ no_credential_line after) as Hdec.
  { destruct (set_api_creds_raises (backend w) (fresh_client w) c)
      as [e|] eqn:Hs; unfold trace.
    - rewrite (run_set_raises w c e Ho Hs).
      eexists (firstn 4 (printed (until_set w c))), [_].
      split; [reflexivity|]. split; by repeat constructor.
    - rewrite (run_verify w c (conj Ho Hs)).
      destruct (verify_trace w (bound_client w c)) as (l & Hl & Hn).
      cbn [fst]. rewrite Hl.
      exists (firstn 4 (printed (until_verify w c))).
      exists ([str_mul "=" 50; nl +:+ "正在验证凭证..."] ++ l).
      split.
      + rewrite printed_app.
        change (EvGetApiKeys ?x :: ?t) with ([EvGetApiKeys x] ++ t).
        rewrite printed_app, printed_map_EvPrint. reflexivity.
      + split; [by repeat constructor|].
        apply Forall_app. split; [by repeat constructor|assumption]. }
  split; [exact Hdec|].
  destruct Hdec as (before & after & -> & Hb & Ha).
  rewrite !List.filter_app.
  rewrite (filter_no_credential_line before Hb).
  rewrite (filter_no_credential_line after Ha).
  reflexivity.
Qed.

Lemma credentials_printed_once_in_order_witness :
  List.filter is_credential_line
    (printed (trace (sample_world (inr (PyList [])))))
  = ["API_KEY      = K1"; "API_SECRET   = S1"; "API_PASSPHRASE = P1"].
Proof.
  apply (credentials_printed_once_in_order
           (sample_world (inr (PyList [])))
           (fresh_client (sample_world (inr (PyList [])))) sample_creds).
  - vm_compute. tauto.
  - reflexivity.
Defined.

(** C3.  In a run that gets to the [get_api_keys] call, an error raised
    by that call (an instance of [Exception], as [except Exception]
    has it) is caught: the last thing the script does is print the
    warning line carrying [str(e)], and the process ends normally. *)
Theorem verification_error_is_a_warning
    (w : World) (cl : ClobClient) (e : PyExc) :
  In (EvGetApiKeys cl) (trace w) →
  get_api_keys_result (backend w) cl = inl e →
  isinstance_Exception e = true →
  outcome w = inr tt
  ∧ last (trace w) = Some (EvPrint ("⚠️ 验证失败: " +:+ exc_str e)).
Proof.
  intros (c & Hb & ->)%reaches_verify Hg He. unfold outcome, trace.
  rewrite (run_verify w c Hb), (verify_caught w _ e Hg He). cbn [fst snd].
  split; [done|]. apply last_two.
Qed.

Lemma verification_error_is_a_warning_witness :
  outcome (sample_world (inl remote_error)) = inr tt
  ∧ last (trace (sample_world (inl remote_error)))
    = Some (EvPrint ("⚠️ 验证失败: " +:+ "status_code=401")).
Proof.
  apply (verification_error_is_a_warning (sample_world (inl remote_error))
           (bound_client (sample_world (inl remote_error)) sample_creds)
           remote_error).
  - vm_compute. tauto.
  - reflexivity.
  - reflexivity.
Defined.

(** C4.  When the [create_or_derive_api_creds] call raises, whatever
    the class of the exception, the run ends there with that exception
    uncaught: only the opening banner was printed, no credential line,
    and neither [set_api_creds] nor [get_api_keys] is called. *)
Theorem creation_error_is_fatal (w : World) (cl : ClobClient) (e : PyExc) :
  In (EvCreateOrDerive cl) (trace w) →
  create_or_derive_result (backend w) cl = inl e →
  outcome w = inl e
  ∧ last (trace w) = Some (EvCreateOrDerive cl)
  ∧ printed (trace w) = ["正在生成 API 凭证..."]
  ∧ no_credential_line (printed (trace w))
  ∧ (∀ cl' c, ¬ In (EvSetApiCreds cl' c) (trace w))
  ∧ (∀ cl', ¬ In (EvGetApiKeys cl') (trace w)).
Proof.
  intros [Hb ->]%reaches_create Hr. unfold outcome, trace.
  rewrite (run_create_raises w e Hb Hr). cbn [fst snd].
  repeat split.
  - by repeat constructor.
  - intros cl' c Hin. simpl in Hin. no_such_event.
  - intros cl' Hin. simpl in Hin. no_such_event.
Qed.

Lemma creation_error_is_fatal_witness :
  outcome world_create_fails = inl remote_error
  ∧ last (trace world_create_fails)
    = Some (EvCreateOrDerive (fresh_client world_create_fails))
  ∧ printed (trace world_create_fails) = ["正在生成 API 凭证..."]
  ∧ no_credential_line (printed (trace world_create_fails))
  ∧ (∀ cl' c, ¬ In (EvSetApiCreds cl' c) (trace world_create_fails))
  ∧ (∀ cl', ¬ In (EvGetApiKeys cl') (trace world_create_fails)).
Proof.
  apply (creation_error_is_fatal world_create_fails
           (fresh_client world_create_fails) remote_error).
  - vm_compute. tauto.
  - reflexivity.
Defined.

(** C5.  In a run that gets to the [get_api_keys] call, when the call
    returns a list of [N] keys the run ends normally and its last
    action is to print the success line, whose count is the decimal
    numeral of [N]: read back, the numeral is [N] itself. *)
Theorem verification_reports_the_count
    (w : World) (cl : ClobClient) (keys : list pyval) :
  In (EvGetApiKeys cl) (trace w) →
  get_api_keys_result (backend w) cl = inr (PyList keys) →
  outcome w = inr tt
  ∧ last (trace w)
    = Some (EvPrint ("✅ 验证成功！当前账户共有 " +:+ str_of_nat (length keys)
                     +:+ " 个 API Key"))
  ∧ nat_of_str (str_of_nat (length keys)) = Some (length keys).
Proof.
  intros (c & Hb & ->)%reaches_verify Hg. unfold outcome, trace.
  rewrite (run_verify w c Hb).
  rewrite (verify_counts w _ (PyList keys) (length keys) Hg eq_refl).
  cbn [fst snd]. split; [done|]. split; [|apply nat_of_str_of_nat].
  apply last_two.
Qed.

Lemma verification_reports_the_count_witness :
  outcome (sample_world (inr (PyList [PyStr "k1"; PyStr "k2"; PyStr "k3"])))
  = inr tt
  ∧ last (trace (sample_world (inr (PyList [PyStr "k1"; PyStr "k2"; PyStr "k3"]))))
    = Some (EvPrint "✅ 验证成功！当前账户共有 3 个 API Key")
  ∧ nat_of_str (str_of_nat 3) = Some 3.
Proof.
  apply (verification_reports_the_count
           (sample_world (inr (PyList [PyStr "k1"; PyStr "k2"; PyStr "k3"])))
           (bound_client
              (sample_world (inr (PyList [PyStr "k1"; PyStr "k2"; PyStr "k3"])))
              sample_creds)
           [PyStr "k1"; PyStr "k2"; PyStr "k3"]).
  - vm_compute. tauto.
  - reflexivity.
Defined.

(** C6.  With both variables set to non-empty strings, the first thing
    the script does after reading them is to call the [ClobClient]
    constructor, once, with host [https://clob.polymarket.com], chain
    id 137, signature type 0, the private key as [key] and the wallet
    address as [funder].  Construction being local (the constructor is
    modelled from the specification), every network call of the run
    comes after that call, and a run in which the constructor raises
    makes no network call at all. *)
Theorem client_built_from_fixed_constants (w : World) (pk wa : string) :
  PRIVATE_KEY_of w = Some pk → pk ≠ "" →
  WALLET_ADDRESS_of w = Some wa → wa ≠ "" →
  ∃ rest,
    trace w
    = startup
      ++ EvClobClient {| host := "https://clob.polymarket.com";
                         chain_id := 137;
                         key := Some pk;
                         signature_type := 0;
                         funder := Some wa |} :: rest
    ∧ (∀ args, ¬ In (EvClobClient args) rest)
    ∧ (∀ ev, In ev (trace w) → is_network_call ev = true → In ev rest)
    ∧ (∀ e, init_raises (backend w)
              {| host := "https://clob.polymarket.com";
                 chain_id := 137;
                 key := Some pk;
                 signature_type := 0;
                 funder := Some wa |} = Some e →
            rest = []
            ∧ outcome w = inl e
            ∧ Forall (λ ev, is_network_call ev = false) (trace w)).
Proof.
  intros Hpk Hne Hwa Hne'.
  assert (config_ok w) as Hok.
  { unfold config_ok. rewrite Hpk, Hwa.
    by destruct pk, wa. }
  destruct (trace_after_config w Hok) as (rest & Ht & Honce & _).
  exists rest.
  assert (kwargs_of w
          = {| host := "https://clob.polymarket.com"; chain_id := 137;
               key := Some pk; signature_type := 0; funder := Some wa |})
    as Hargs.
  { unfold kwargs_of, client_kwargs. by rewrite Hpk, Hwa. }
  rewrite <- Hargs. split; [exact Ht|]. split; [exact Honce|]. split.
  - intros ev Hin Hnet. rewrite Ht in Hin.
    apply in_app_iff in Hin as [Hin|[<-|Hin]]; [|discriminate Hnet|exact Hin].
    simpl in Hin.
    repeat destruct Hin as [<-|Hin]; try discriminate Hnet. destruct Hin.
  - intros e Hi. unfold outcome. unfold trace in *.
    rewrite (run_init_raises w e Hok Hi) in *. cbn [fst snd] in *.
    split; [|split; [done|by repeat constructor]].
    apply app_inv_head in Ht. by injection Ht as <-.
Qed.

Lemma client_built_from_fixed_constants_witness :
  ∃ rest,
    trace world_init_fails
    = startup
      ++ EvClobClient {| host := "https://clob.polymarket.com";
                         chain_id := 137;
                         key := Some "0xabc";
                         signature_type := 0;
                         funder := Some "0xdef" |} :: rest
    ∧ (∀ args, ¬ In (EvClobClient args) rest)
    ∧ (∀ ev, In ev (trace world_init_fails) →
             is_network_call ev = true → In ev rest)
    ∧ (∀ e, init_raises (backend world_init_fails)
              {| host := "https://clob.polymarket.com";
                 chain_id := 137;
                 key := Some "0xabc";
                 signature_type := 0;
                 funder := Some "0xdef" |} = Some e →
            rest = []
            ∧ outcome world_init_fails = inl e
            ∧ Forall (λ ev, is_network_call ev = false)
                (trace world_init_fails)).
Proof.
  apply (client_built_from_fixed_constants world_init_fails "0xabc" "0xdef").
  - vm_compute. reflexivity.
  - discriminate.
  - vm_compute. reflexivity.
  - discriminate.
Defined.

(** C7.  End to end: with both variables set, a client that returns the
    credentials K1, S1, P1 and then a list of two keys, standard output
    has the lines [API_KEY      = K1], [API_SECRET   = S1],
    [API_PASSPHRASE = P1] and the success line with the count 2, and the
    run ends normally. *)
Theorem end_to_end_scenario (w : World) (k1 k2 : pyval) :
  creds_bound w {| api_key := "K1"; api_secret := "S1";
                   api_passphrase := "P1" |} →
  get_api_keys_result (backend w)
    (bound_client w {| api_key := "K1"; api_secret := "S1";
                       api_passphrase := "P1" |})
  = inr (PyList [k1; k2]) →
  outcome w = inr tt
  ∧ In "API_KEY      = K1" (stdout_lines w)
  ∧ In "API_SECRET   = S1" (stdout_lines w)
  ∧ In "API_PASSPHRASE = P1" (stdout_lines w)
  ∧ In "✅ 验证成功！当前账户共有 2 个 API Key" (stdout_lines w).
Proof.
  intros Hb Hg. unfold outcome, stdout_lines, trace.
  rewrite (run_verify w _ Hb).
  rewrite (verify_counts w _ (PyList [k1; k2]) 2 Hg eq_refl).
  cbn [fst snd]. split; [done|].
  unfold until_verify, until_set, until_create, startup.
  vm_compute. tauto.
Qed.

Lemma end_to_end_scenario_witness :
  outcome (sample_world (inr (PyList [PyStr "a"; PyStr "b"]))) = inr tt
  ∧ In "API_KEY      = K1"
       (stdout_lines (sample_world (inr (PyList [PyStr "a"; PyStr "b"]))))
  ∧ In "API_SECRET   = S1"
       (stdout_lines (sample_world (inr (PyList [PyStr "a"; PyStr "b"]))))
  ∧ In "API_PASSPHRASE = P1"
       (stdout_lines (sample_world (inr (PyList [PyStr "a"; PyStr "b"]))))
  ∧ In "✅ 验证成功！当前账户共有 2 个 API Key"
       (stdout_lines (sample_world (inr (PyList [PyStr "a"; PyStr "b"])))).
Proof.
  apply (end_to_end_scenario
           (sample_world (inr (PyList [PyStr "a"; PyStr "b"])))
           (PyStr "a") (PyStr "b")).
  - repeat split; vm_compute; reflexivity.
  - reflexivity.
Defined.

(** C8, as stated, fails.  The claim is that the error message
    identifies exactly the variable(s) that are absent or empty.  With
    the private key set and only the wallet address missing, the message
    names the private key all the same. *)
Lemma message_does_not_single_out_the_missing :
  ¬ (∀ w : World,
       unset_or_empty (PRIVATE_KEY_of w) ∨ unset_or_empty (WALLET_ADDRESS_of w) →
       ∃ e, outcome w = inl e ∧ names_exactly_the_missing w (exc_str e)).
Proof.
  intros H.
  destruct (H world_without_address) as (e & Ho & [Hk _]).
  { right. left. vm_compute. reflexivity. }
  assert (outcome world_without_address = inl config_error) as Hout
    by (vm_compute; reflexivity).
  rewrite Hout in Ho. injection Ho as <-.
  assert (unset_or_empty (PRIVATE_KEY_of world_without_address)) as [Hu|Hu].
  { apply Hk. vm_compute. reflexivity. }
  - vm_compute in Hu. discriminate Hu.
  - vm_compute in Hu. discriminate Hu.
Qed.

(** C8, amended.  Whichever of the two variables is missing, the error
    raised is the same [ValueError], whose fixed message names both
    required variables. *)
Theorem config_error_names_both_variables (w : World) :
  unset_or_empty (PRIVATE_KEY_of w) ∨ unset_or_empty (WALLET_ADDRESS_of w) →
  outcome w
  = inl (mkExc ValueError
           "请在 .env 中配置 POLYMARKET_TRADER_PRIVATE_KEY 和 POLYMARKET_TRADER_ADDRESS")
  ∧ str_contains "POLYMARKET_TRADER_PRIVATE_KEY" config_error_message = true
  ∧ str_contains "POLYMARKET_TRADER_ADDRESS" config_error_message = true.
Proof.
  intros H%config_invalid_iff. unfold outcome.
  rewrite (run_config_missing w H). repeat split.
Qed.

Lemma config_error_names_both_variables_witness :
  outcome world_without_address = inl config_error
  ∧ str_contains "POLYMARKET_TRADER_PRIVATE_KEY" config_error_message = true
  ∧ str_contains "POLYMARKET_TRADER_ADDRESS" config_error_message = true.
Proof.
  apply (config_error_names_both_variables world_without_address).
  right. left. vm_compute. reflexivity.
Defined.

(** C9.  When [set_api_creds] raises, whatever the class of the
    exception, the run ends there with that exception uncaught, after
    the three credential lines were printed; no warning is printed and
    [get_api_keys] is not called.  The same error raised one call
    later, by [get_api_keys], is caught and only printed. *)
Theorem binding_error_is_fatal
    (w : World) (cl : ClobClient) (c : ApiCreds) (e : PyExc) :
  In (EvSetApiCreds cl c) (trace w) →
  set_api_creds_raises (backend w) cl c = Some e →
  outcome w = inl e
  ∧ last (trace w) = Some (EvSetApiCreds cl c)
  ∧ List.filter is_credential_line (printed (trace w))
    = [key_line c; secret_line c; passphrase_line c]
  ∧ ¬ In (warning_line e) (printed (trace w))
  ∧ (∀ cl', ¬ In (EvGetApiKeys cl') (trace w))
  ∧ (isinstance_Exception e = true →
     outcome (raise_in_get_api_keys w e) = inr tt
     ∧ last (trace (raise_in_get_api_keys w e))
       = Some (EvPrint (warning_line e))).
Proof.
  intros [Ho ->]%reaches_set Hs.
  assert (creds_bound (raise_in_get_api_keys w e) c) as Hb'.
  { destruct Ho as [[[Hk Ha] Hi] Hr]. repeat split; assumption. }
  unfold outcome, trace. rewrite (run_set_raises w c e Ho Hs). cbn [fst snd].
  split; [done|]. split.
  { unfold until_set. rewrite app_assoc. apply last_snoc. }
  split; [reflexivity|]. split.
  { simpl. intros Hin.
    repeat match goal with
           | H : _ ∨ _ |- _ => destruct H as [H|H]
           | H : False |- _ => destruct H
           | H : @eq string _ _ |- _ => discriminate H
           end. }
  split.
  { intros cl' Hin. unfold until_set, until_create, startup in Hin.
    simpl in Hin. no_such_event. }
  intros He. rewrite (run_verify _ c Hb').
  rewrite (verify_caught (raise_in_get_api_keys w e) _ e eq_refl He).
  cbn [fst snd].
  split; [done|]. apply last_two.
Qed.

Lemma binding_error_is_fatal_witness :
  outcome world_set_fails = inl remote_error
  ∧ last (trace world_set_fails)
    = Some (EvSetApiCreds (fresh_client world_set_fails) sample_creds)
  ∧ List.filter is_credential_line (printed (trace world_set_fails))
    = [key_line sample_creds; secret_line sample_creds;
       passphrase_line sample_creds]
  ∧ ¬ In (warning_line remote_error) (printed (trace world_set_fails))
  ∧ (∀ cl', ¬ In (EvGetApiKeys cl') (trace world_set_fails))
  ∧ (isinstance_Exception remote_error = true →
     outcome (raise_in_get_api_keys world_set_fails remote_error) = inr tt
     ∧ last (trace (raise_in_get_api_keys world_set_fails remote_error))
       = Some (EvPrint (warning_line remote_error))).
Proof.
  apply (binding_error_is_fatal world_set_fails
           (fresh_client world_set_fails) sample_creds remote_error).
  - vm_compute. tauto.
  - reflexivity.
Defined.

(** C10, as stated, fails.  The claim has every value that passes the
    check reach the remote API.  With whitespace-only values the check
    is passed, but when the constructor then rejects the key the run
    ends there and the remote end is never contacted. *)
Lemma passing_the_check_need_not_reach_the_api :
  ¬ (∀ w : World,
       (trace w = startup ∧ outcome w = inl config_error
        ↔ unset_or_empty (PRIVATE_KEY_of w)
          ∨ unset_or_empty (WALLET_ADDRESS_of w))
       ∧ (¬ (unset_or_empty (PRIVATE_KEY_of w)
             ∨ unset_or_empty (WALLET_ADDRESS_of w)) →
          In (EvClobClient (kwargs_of w)) (trace w)
          ∧ ∃ cl, In (EvCreateOrDerive cl) (trace w))).
Proof.
  intros H. destruct (H world_blanks_rejected) as [_ Hreach].
  destruct Hreach as [_ [cl Hin]].
  - vm_compute. intros [[Hu|Hu]|[Hu|Hu]]; discriminate Hu.
  - vm_compute in Hin.
    repeat destruct Hin as [Hin|Hin]; try discriminate Hin. destruct Hin.
Qed.

(** C10, amended.  The configuration check rejects a run exactly when
    one of the two values is absent or the empty string.  Any other
    pair of strings, whitespace included, gets through: the constructor
    is called with these very values, and once it has returned the
    credential request goes out on that client. *)
Theorem validation_rejects_only_unset_or_empty (w : World) :
  (trace w = startup ∧ outcome w = inl config_error
   ↔ unset_or_empty (PRIVATE_KEY_of w) ∨ unset_or_empty (WALLET_ADDRESS_of w))
  ∧ (¬ (unset_or_empty (PRIVATE_KEY_of w)
        ∨ unset_or_empty (WALLET_ADDRESS_of w)) →
     ∃ rest,
       trace w
       = startup
         ++ EvClobClient
              (client_kwargs (PRIVATE_KEY_of w) (WALLET_ADDRESS_of w)) :: rest
       ∧ (init_raises (backend w) (kwargs_of w) = None →
          ∃ rest', rest = EvPrint "正在生成 API 凭证..."
                          :: EvCreateOrDerive (fresh_client w) :: rest')).
Proof.
  assert (¬ (unset_or_empty (PRIVATE_KEY_of w)
             ∨ unset_or_empty (WALLET_ADDRESS_of w)) → config_ok w) as Hok.
  { intros Hn. unfold config_ok. rewrite !truthy_true_iff. tauto. }
  split; [split|].
  - intros [Ht _].
    destruct (config_invalid (PRIVATE_KEY_of w) (WALLET_ADDRESS_of w)) eqn:Hc.
    + by apply config_invalid_iff.
    + apply config_ok_iff in Hc.
      destruct (trace_after_config w Hc) as (rest & Ht' & _).
      rewrite Ht in Ht'. apply (f_equal length) in Ht'.
      rewrite length_app in Ht'. simpl in Ht'. lia.
  - intros H%config_invalid_iff. unfold trace, outcome.
    by rewrite (run_config_missing w H).
  - intros Hn. destruct (trace_after_config w (Hok Hn)) as (rest & Ht & _ & Hr).
    by exists rest.
Qed.

Lemma validation_rejects_only_unset_or_empty_witness :
  ∃ rest,
    trace world_with_blanks
    = startup
      ++ EvClobClient (client_kwargs (Some "   ") (Some " "))
      :: EvPrint "正在生成 API 凭证..."
      :: EvCreateOrDerive (fresh_client world_with_blanks) :: rest.
Proof.
  destruct (validation_rejects_only_unset_or_empty world_with_blanks)
    as [_ H].
  destruct H as (rest & Ht & Hr).
  - vm_compute. intros [[H|H]|[H|H]]; discriminate H.
  - destruct Hr as (rest' & ->); [reflexivity|].
    exists rest'. exact Ht.
Defined.

(** * Further properties of the script *)

(** ** Shared facts *)

Lemma reaches_init (w : World) (args : ClobArgs) :
  In (EvClobClient args) (trace w) → config_ok w ∧ args = kwargs_of w.
Proof.
  trace_at_stage w; intros Hin;
    unfold until_verify, until_set, until_create, until_report_fails,
      startup in Hin;
    rewrite ?in_app_iff in Hin; simpl in Hin; no_such_event; subst;
    try done.
  - by destruct Hb.
  - by destruct Hb.
  - by destruct Ho as [[? ?] ?].
  - by destruct Hb as [[[? ?] ?] ?].
Qed.

(** The self-check ends normally unless [get_api_keys] raises something
    that is not an [Exception]. *)
Lemma verify_outcome (w : World) (cl : ClobClient) :
  (verify w cl).2 = inr tt
  ↔ ∀ e, get_api_keys_result (backend w) cl = inl e →
         isinstance_Exception e = true.
Proof.
  destruct (get_api_keys_result (backend w) cl) as [e|v] eqn:Hg.
  - destruct (isinstance_Exception e) eqn:He.
    + rewrite (verify_caught w cl e Hg He). split; [|done].
      intros _ e' [= <-]. exact He.
    + rewrite (verify_escapes w cl e Hg He). split; [done|].
      intros H. specialize (H e eq_refl). congruence.
  - destruct (py_len v) as [e|n] eqn:Hn.
    + rewrite (verify_len_fails w cl v e Hg Hn). split; [|done].
      intros _ e' Habs. discriminate Habs.
    + rewrite (verify_counts w cl v n Hg Hn). split; [|done].
      intros _ e' Habs. discriminate Habs.
Qed.

(** What the self-check does depends only on what [get_api_keys]
    answers. *)
Lemma verify_same_answer (w1 w2 : World) (cl1 cl2 : ClobClient) :
  get_api_keys_result (backend w1) cl1 = get_api_keys_result (backend w2) cl2 →
  printed (verify w1 cl1).1 = printed (verify w2 cl2).1
  ∧ (verify w1 cl1).2 = (verify w2 cl2).2.
Proof.
  intros H. step_verify. rewrite H.
  destruct (get_api_keys_result (backend w2) cl2) as [e|v]; simpl.
  - by destruct (isinstance_Exception e).
  - destruct (py_len v) as [e|n]; simpl; [|done].
    by destruct (isinstance_Exception e).
Qed.

(** The prints of a run that gets to the self-check: the ten fixed and
    credential lines, then what the self-check prints. *)
Lemma printed_at_verify (w : World) (c : ApiCreds) :
  creds_bound w c →
  ∃ l, printed (trace w)
       = ["正在生成 API 凭证..."; nl +:+ str_mul "=" 50;
          "✅ API 凭证生成成功！请妥善保存以下信息：";
          str_mul "=" 50; key_line c; secret_line c; passphrase_line c;
          str_mul "=" 50; nl +:+ "正在验证凭证..."] ++ l
       ∧ (verify w (bound_client w c)).1
         = EvGetApiKeys (bound_client w c) :: map EvPrint l
       ∧ no_credential_line l.
Proof.
  intros Hb. unfold trace. rewrite (run_verify w c Hb).
  destruct (verify_trace w (bound_client w c)) as (l & Hl & Hn).
  exists l. cbn [fst]. rewrite Hl. split; [|by split].
  rewrite printed_app.
  change (EvGetApiKeys ?x :: ?t) with ([EvGetApiKeys x] ++ t).
  rewrite printed_app, printed_map_EvPrint. reflexivity.
Qed.

(** ** Failures before the credentials exist *)

(** X1.  When the [ClobClient] constructor raises, whatever the class of
    the exception, the run ends there with that exception uncaught:
    nothing at all has been printed and no network call is made. *)
Theorem constructor_error_is_fatal (w : World) (args : ClobArgs) (e : PyExc) :
  In (EvClobClient args) (trace w) →
  init_raises (backend w) args = Some e →
  outcome w = inl e
  ∧ last (trace w) = Some (EvClobClient args)
  ∧ printed (trace w) = []
  ∧ Forall (λ ev, is_network_call ev = false) (trace w).
Proof.
  intros [Hc ->]%reaches_init Hi. unfold outcome, trace.
  rewrite (run_init_raises w e Hc Hi). cbn [fst snd].
  repeat split. by repeat constructor.
Qed.

Lemma constructor_error_is_fatal_witness :
  outcome world_init_fails = inl (mkExc ValueError "invalid private key")
  ∧ last (trace world_init_fails)
    = Some (EvClobClient (kwargs_of world_init_fails))
  ∧ printed (trace world_init_fails) = []
  ∧ Forall (λ ev, is_network_call ev = false) (trace world_init_fails).
Proof.
  apply (constructor_error_is_fatal world_init_fails
           (kwargs_of world_init_fails)
           (mkExc ValueError "invalid private key")).
  - vm_compute. tauto.
  - reflexivity.
Defined.

(** ** When the process ends normally *)

(** X2.  The run ends normally exactly when the configuration is valid,
    the constructor, [create_or_derive_api_creds] and [set_api_creds]
    all return, and [get_api_keys] does not raise anything outside
    [Exception]. *)
Theorem normal_exit_iff (w : World) :
  outcome w = inr tt
  ↔ ∃ c, creds_bound w c
         ∧ ∀ e, get_api_keys_result (backend w) (bound_client w c) = inl e →
                isinstance_Exception e = true.
Proof.
  unfold outcome. split.
  - destruct (stage_of w) as [H|e Hc Hi|e Hb Hr|Hb Hr|c e Ho Hs|c Hb].
    + by rewrite (run_config_missing w H).
    + by rewrite (run_init_raises w e Hc Hi).
    + by rewrite (run_create_raises w e Hb Hr).
    + by rewrite (run_create_None w Hb Hr).
    + by rewrite (run_set_raises w c e Ho Hs).
    + rewrite (run_verify w c Hb). cbn [snd]. intros Hv.
      exists c. split; [exact Hb|]. by apply verify_outcome.
  - intros (c & Hb & Hg). rewrite (run_verify w c Hb). cbn [snd].
    by apply verify_outcome.
Qed.

Lemma normal_exit_iff_witness :
  outcome (sample_world (inl remote_error)) = inr tt.
Proof.
  apply (normal_exit_iff (sample_world (inl remote_error))).
  exists sample_creds. split.
  - repeat split; vm_compute; reflexivity.
  - intros e [= <-]. reflexivity.
Defined.

(** X3.  A normal end means the whole report is on standard output: ten
    [print] calls were made, the credential lines among them are the
    three fields of the set the remote end returned, and the last line
    is either the success line or the warning line. *)
Theorem normal_exit_shows_credentials (w : World) :
  outcome w = inr tt →
  ∃ c, create_or_derive_result (backend w) (fresh_client w) = inr (Some c)
       ∧ length (printed (trace w)) = 10
       ∧ List.filter is_credential_line (printed (trace w))
         = ["API_KEY      = " +:+ api_key c;
            "API_SECRET   = " +:+ api_secret c;
            "API_PASSPHRASE = " +:+ api_passphrase c]
       ∧ ((∃ n, last (printed (trace w)) = Some (verified_line n))
          ∨ (∃ e, last (printed (trace w)) = Some (warning_line e))).
Proof.
  intros Hout.
  assert (∃ c, creds_bound w c) as [c Hb].
  { unfold outcome in Hout.
    destruct (stage_of w) as [H|e Hc Hi|e Hb Hr|Hb Hr|c e Ho Hs|c Hb].
    - by rewrite (run_config_missing w H) in Hout.
    - by rewrite (run_init_raises w e Hc Hi) in Hout.
    - by rewrite (run_create_raises w e Hb Hr) in Hout.
    - by rewrite (run_create_None w Hb Hr) in Hout.
    - by rewrite (run_set_raises w c e Ho Hs) in Hout.
    - by exists c. }
  exists c. split; [by destruct Hb as [[_ Hr] _]|].
  unfold outcome, trace in *. rewrite (run_verify w c Hb) in *.
  cbn [fst snd] in *. rewrite printed_app.
  set (cl := bound_client w c) in *.
  destruct (get_api_keys_result (backend w) cl) as [e|v] eqn:Hg.
  - destruct (isinstance_Exception e) eqn:He.
    + rewrite (verify_caught w cl e Hg He). repeat split. right. by exists e.
    + by rewrite (verify_escapes w cl e Hg He) in Hout.
  - destruct (py_len v) as [e|n] eqn:Hn.
    + rewrite (verify_len_fails w cl v e Hg Hn). repeat split. right.
      by exists e.
    + rewrite (verify_counts w cl v n Hg Hn). repeat split. left.
      by exists n.
Qed.

Lemma normal_exit_shows_credentials_witness :
  ∃ c, create_or_derive_result
         (backend (sample_world (inr PyNone)))
         (fresh_client (sample_world (inr PyNone))) = inr (Some c)
       ∧ length (printed (trace (sample_world (inr PyNone)))) = 10
       ∧ List.filter is_credential_line
           (printed (trace (sample_world (inr PyNone))))
         = ["API_KEY      = " +:+ api_key c;
            "API_SECRET   = " +:+ api_secret c;
            "API_PASSPHRASE = " +:+ api_passphrase c]
       ∧ ((∃ n, last (printed (trace (sample_world (inr PyNone))))
                = Some (verified_line n))
          ∨ (∃ e, last (printed (trace (sample_world (inr PyNone))))
                  = Some (warning_line e))).
Proof.
  apply (normal_exit_shows_credentials (sample_world (inr PyNone))).
  vm_compute. reflexivity.
Defined.

(** ** The calls into the client library *)

(** X4.  No retries and no reordering: the calls a run makes into
    [py_clob_client] are an initial part of the sequence constructor,
    [create_or_derive_api_creds], [set_api_creds], [get_api_keys], each
    made at most once; the credential request goes out on a client
    without credentials, and [set_api_creds] receives the very set that
    request returned. *)
Theorem client_calls_once_in_order (w : World) :
  let calls := List.filter is_client_call (trace w) in
  calls = []
  ∨ calls = [EvClobClient (kwargs_of w)]
  ∨ calls = [EvClobClient (kwargs_of w); EvCreateOrDerive (fresh_client w)]
  ∨ ∃ c, create_or_derive_result (backend w) (fresh_client w) = inr (Some c)
         ∧ (calls = [EvClobClient (kwargs_of w);
                     EvCreateOrDerive (fresh_client w);
                     EvSetApiCreds (fresh_client w) c]
            ∨ calls = [EvClobClient (kwargs_of w);
                       EvCreateOrDerive (fresh_client w);
                       EvSetApiCreds (fresh_client w) c;
                       EvGetApiKeys (bound_client w c)]).
Proof.
  cbv zeta. trace_at_stage w.
  - left. reflexivity.
  - right; left. reflexivity.
  - right; right; left. reflexivity.
  - right; right; left. reflexivity.
  - right; right; right. exists c. split; [by destruct Ho|]. left.
    reflexivity.
  - right; right; right. exists c. split; [by destruct Hb as [[_ ?] _]|].
    right. unfold until_verify, until_set, until_create.
    rewrite !List.filter_app. simpl. do 4 f_equal.
    clear. induction l as [|s l IH]; [done|]. exact IH.
Qed.

(** X5.  The self-check is run with the credentials that were shown: the
    client [get_api_keys] is called on carries the set returned by
    [create_or_derive_api_creds], the constructor arguments are
    unchanged, and the credential lines printed are the fields of that
    same set. *)
Theorem verification_uses_the_printed_credentials
    (w : World) (cl : ClobClient) :
  In (EvGetApiKeys cl) (trace w) →
  ∃ c, create_or_derive_result (backend w) (fresh_client w) = inr (Some c)
       ∧ client_creds cl = Some c
       ∧ client_args cl = kwargs_of w
       ∧ List.filter is_credential_line (printed (trace w))
         = credential_lines c.
Proof.
  intros (c & Hb & ->)%reaches_verify. exists c.
  split; [by destruct Hb as [[_ ?] _]|]. split; [done|]. split; [done|].
  destruct (printed_at_verify w c Hb) as (l & -> & _ & Hn).
  rewrite List.filter_app, (filter_no_credential_line l Hn). reflexivity.
Qed.

Lemma verification_uses_the_printed_credentials_witness :
  ∃ c, create_or_derive_result (backend (sample_world (inr (PyList []))))
         (fresh_client (sample_world (inr (PyList [])))) = inr (Some c)
       ∧ client_creds
           (bound_client (sample_world (inr (PyList []))) sample_creds)
         = Some c
       ∧ client_args
           (bound_client (sample_world (inr (PyList []))) sample_creds)
         = kwargs_of (sample_world (inr (PyList [])))
       ∧ List.filter is_credential_line
           (printed (trace (sample_world (inr (PyList [])))))
         = credential_lines c.
Proof.
  apply (verification_uses_the_printed_credentials
           (sample_world (inr (PyList [])))
           (bound_client (sample_world (inr (PyList []))) sample_creds)).
  vm_compute. tauto.
Defined.

(** ** The self-check, beyond lists and errors *)

(** X6.  When [get_api_keys] returns an object that has no length
    ([None]), the [TypeError] raised by [len] inside the [try] block is
    caught like an error of the call itself: the warning line with its
    message is the last thing printed and the run ends normally. *)
Theorem answer_without_len_is_a_warning
    (w : World) (cl : ClobClient) (v : pyval) (e : PyExc) :
  In (EvGetApiKeys cl) (trace w) →
  get_api_keys_result (backend w) cl = inr v →
  py_len v = inl e →
  outcome w = inr tt
  ∧ last (trace w) = Some (EvPrint ("⚠️ 验证失败: " +:+ exc_str e))
  ∧ (∀ n, ¬ In (verified_line n) (printed (trace w))).
Proof.
  intros (c & Hb & ->)%reaches_verify Hg Hn. unfold outcome, trace.
  rewrite (run_verify w c Hb), (verify_len_fails w _ v e Hg Hn).
  cbn [fst snd]. split; [done|]. split; [apply last_two|].
  intros n Hin. unfold until_verify, until_set, until_create in Hin.
  simpl in Hin.
  repeat match goal with
         | H : _ ∨ _ |- _ => destruct H as [H|H]
         | H : False |- _ => destruct H
         | H : @eq string _ _ |- _ => discriminate H
         end.
Qed.

Lemma answer_without_len_is_a_warning_witness :
  outcome (sample_world (inr PyNone)) = inr tt
  ∧ last (trace (sample_world (inr PyNone)))
    = Some (EvPrint ("⚠️ 验证失败: "
                     +:+ "object of type 'NoneType' has no len()"))
  ∧ (∀ n, ¬ In (verified_line n) (printed (trace (sample_world (inr PyNone))))).
Proof.
  apply (answer_without_len_is_a_warning (sample_world (inr PyNone))
           (bound_client (sample_world (inr PyNone)) sample_creds) PyNone
           (mkExc TypeError "object of type 'NoneType' has no len()")).
  - vm_compute. tauto.
  - reflexivity.
  - reflexivity.
Defined.

(** X7.  The count in the success line is [len] of whatever
    [get_api_keys] returned, not the number of API keys as such: for a
    JSON object it is the number of its top-level entries. *)
Theorem success_line_reports_len
    (w : World) (cl : ClobClient) (v : pyval) (n : nat) :
  In (EvGetApiKeys cl) (trace w) →
  get_api_keys_result (backend w) cl = inr v →
  py_len v = inr n →
  outcome w = inr tt
  ∧ last (trace w)
    = Some (EvPrint ("✅ 验证成功！当前账户共有 " +:+ str_of_nat n
                     +:+ " 个 API Key"))
  ∧ (∀ e, ¬ In (warning_line e) (printed (trace w))).
Proof.
  intros (c & Hb & ->)%reaches_verify Hg Hn. unfold outcome, trace.
  rewrite (run_verify w c Hb), (verify_counts w _ v n Hg Hn).
  cbn [fst snd]. split; [done|]. split; [apply last_two|].
  intros e Hin. unfold until_verify, until_set, until_create in Hin.
  simpl in Hin.
  repeat match goal with
         | H : _ ∨ _ |- _ => destruct H as [H|H]
         | H : False |- _ => destruct H
         | H : @eq string _ _ |- _ => discriminate H
         end.
Qed.

Lemma success_line_reports_len_witness :
  outcome (sample_world
             (inr (PyDict [("apiKeys", PyList [PyStr "a"; PyStr "b"])])))
  = inr tt
  ∧ last (trace (sample_world
                   (inr (PyDict [("apiKeys", PyList [PyStr "a"; PyStr "b"])]))))
    = Some (EvPrint "✅ 验证成功！当前账户共有 1 个 API Key")
  ∧ (∀ e, ¬ In (warning_line e)
              (printed
                 (trace (sample_world
                           (inr (PyDict [("apiKeys",
                                          PyList [PyStr "a"; PyStr "b"])])))))).
Proof.
  apply (success_line_reports_len
           (sample_world
              (inr (PyDict [("apiKeys", PyList [PyStr "a"; PyStr "b"])])))
           (bound_client
              (sample_world
                 (inr (PyDict [("apiKeys", PyList [PyStr "a"; PyStr "b"])])))
              sample_creds)
           (PyDict [("apiKeys", PyList [PyStr "a"; PyStr "b"])]) 1).
  - vm_compute. tauto.
  - reflexivity.
  - reflexivity.
Defined.

(** X8.  [except Exception] does not cover everything: an exception
    raised by [get_api_keys] that is not an [Exception] instance (a
    [KeyboardInterrupt]) ends the run uncaught, right at the call;
    neither the success line nor a warning is printed. *)
Theorem interrupt_escapes_the_self_check
    (w : World) (cl : ClobClient) (e : PyExc) :
  In (EvGetApiKeys cl) (trace w) →
  get_api_keys_result (backend w) cl = inl e →
  isinstance_Exception e = false →
  outcome w = inl e
  ∧ last (trace w) = Some (EvGetApiKeys cl)
  ∧ last (printed (trace w)) = Some (nl +:+ "正在验证凭证...").
Proof.
  intros (c & Hb & ->)%reaches_verify Hg He. unfold outcome, trace.
  rewrite (run_verify w c Hb), (verify_escapes w _ e Hg He).
  cbn [fst snd]. split; [done|]. split; [apply last_snoc|reflexivity].
Qed.

Lemma interrupt_escapes_the_self_check_witness :
  outcome (sample_world (inl (mkExc KeyboardInterrupt "")))
  = inl (mkExc KeyboardInterrupt "")
  ∧ last (trace (sample_world (inl (mkExc KeyboardInterrupt ""))))
    = Some (EvGetApiKeys
              (bound_client (sample_world (inl (mkExc KeyboardInterrupt "")))
                 sample_creds))
  ∧ last (printed (trace (sample_world (inl (mkExc KeyboardInterrupt "")))))
    = Some (nl +:+ "正在验证凭证...").
Proof.
  apply (interrupt_escapes_the_self_check
           (sample_world (inl (mkExc KeyboardInterrupt "")))
           (bound_client (sample_world (inl (mkExc KeyboardInterrupt "")))
              sample_creds)
           (mkExc KeyboardInterrupt "")).
  - vm_compute. tauto.
  - reflexivity.
  - reflexivity.
Defined.

(** ** What reaches standard output *)

(** X9.  A credential line is never printed out of thin air: every
    printed line that starts with the [API_] label is the key, secret or
    passphrase line of the set that [create_or_derive_api_creds]
    returned in this run. *)
Theorem credential_lines_come_from_the_remote (w : World) (s : string) :
  In s (printed (trace w)) →
  is_credential_line s = true →
  ∃ c, In (EvCreateOrDerive (fresh_client w)) (trace w)
       ∧ create_or_derive_result (backend w) (fresh_client w) = inr (Some c)
       ∧ In s (credential_lines c).
Proof.
  unfold trace.
  destruct (stage_of w) as [H|e Hc Hi|e Hb Hr|Hb Hr|c e Ho Hs|c Hb].
  - rewrite (run_config_missing w H). intros [].
  - rewrite (run_init_raises w e Hc Hi). intros [].
  - rewrite (run_create_raises w e Hb Hr). simpl.
    intros [<-|[]] Hs. discriminate Hs.
  - rewrite (run_create_None w Hb Hr). simpl. intros Hin Hs.
    repeat destruct Hin as [Hin|Hin]; subst; try discriminate Hs.
    destruct Hin.
  - rewrite (run_set_raises w c e Ho Hs). cbn [fst]. intros Hin Hcl.
    exists c. split; [|split; [by destruct Ho|]].
    + unfold until_set, until_create. rewrite !in_app_iff. left. right.
      simpl. tauto.
    + simpl in Hin. unfold credential_lines. simpl.
      repeat destruct Hin as [Hin|Hin]; subst; try discriminate Hcl;
        try tauto.
  - pose proof (printed_at_verify w c Hb) as (l & Hp & _ & Hn).
    unfold trace in Hp. rewrite Hp. intros Hin Hcl.
    exists c. split; [|split; [by destruct Hb as [[_ ?] _]|]].
    + rewrite (run_verify w c Hb). cbn [fst].
      unfold until_verify, until_set, until_create. rewrite !in_app_iff.
      left. left. left. right. simpl. tauto.
    + apply in_app_iff in Hin as [Hin|Hin].
      * simpl in Hin. unfold credential_lines. simpl.
        repeat destruct Hin as [Hin|Hin]; subst; try discriminate Hcl;
          try tauto.
      * unfold no_credential_line in Hn. rewrite Forall_forall in Hn.
        apply list_elem_of_In in Hin. specialize (Hn s Hin). congruence.
Qed.

Lemma credential_lines_come_from_the_remote_witness :
  ∃ c, In (EvCreateOrDerive (fresh_client world_set_fails))
          (trace world_set_fails)
       ∧ create_or_derive_result (backend world_set_fails)
           (fresh_client world_set_fails) = inr (Some c)
       ∧ In "API_SECRET   = S1" (credential_lines c).
Proof.
  apply (credential_lines_come_from_the_remote world_set_fails
           "API_SECRET   = S1").
  - vm_compute. tauto.
  - reflexivity.
Defined.

(** X10.  The script itself never writes the private key or the wallet
    address: two runs with valid configuration in which the client
    library gives the same answers print the same lines and end the same
    way, whatever the two values are. *)
Theorem output_does_not_depend_on_the_secrets (w1 w2 : World) :
  config_ok w1 → config_ok w2 →
  init_raises (backend w1) (kwargs_of w1)
  = init_raises (backend w2) (kwargs_of w2) →
  create_or_derive_result (backend w1) (fresh_client w1)
  = create_or_derive_result (backend w2) (fresh_client w2) →
  (∀ c, set_api_creds_raises (backend w1) (fresh_client w1) c
        = set_api_creds_raises (backend w2) (fresh_client w2) c) →
  (∀ c, get_api_keys_result (backend w1) (bound_client w1 c)
        = get_api_keys_result (backend w2) (bound_client w2 c)) →
  printed (trace w1) = printed (trace w2) ∧ outcome w1 = outcome w2.
Proof.
  intros Hok1 Hok2 Hi Hr Hs Hg. unfold trace, outcome.
  apply config_ok_iff in Hok1 as Hv1. apply config_ok_iff in Hok2 as Hv2.
  destruct (stage_of w1) as [H1|e1 _ Hi1|e1 [_ Hi1] Hr1|[_ Hi1] Hr1
                            |c1 e1 [[_ Hi1] Hr1] Hs1|c1 Hb1];
    [congruence| | | | |];
  (destruct (stage_of w2) as [H2|e2 _ Hi2|e2 [_ Hi2] Hr2|[_ Hi2] Hr2
                             |c2 e2 [[_ Hi2] Hr2] Hs2|c2 Hb2];
    [congruence| | | | |]);
  try (pose proof Hb1 as [[[_ Hi1] Hr1] Hs1]);
  try (pose proof Hb2 as [[[_ Hi2] Hr2] Hs2]);
  try congruence.
  - rewrite (run_init_raises w1 e1 Hok1 Hi1), (run_init_raises w2 e2 Hok2 Hi2).
    split; [reflexivity|]. cbn [snd]. congruence.
  - rewrite (run_create_raises w1 e1 (conj Hok1 Hi1) Hr1).
    rewrite (run_create_raises w2 e2 (conj Hok2 Hi2) Hr2).
    split; [reflexivity|]. cbn [snd]. congruence.
  - rewrite (run_create_None w1 (conj Hok1 Hi1) Hr1).
    rewrite (run_create_None w2 (conj Hok2 Hi2) Hr2).
    split; reflexivity.
  - assert (c1 = c2) as -> by congruence.
    rewrite (run_set_raises w1 c2 e1 (conj (conj Hok1 Hi1) Hr1) Hs1).
    rewrite (run_set_raises w2 c2 e2 (conj (conj Hok2 Hi2) Hr2) Hs2).
    split; [reflexivity|]. cbn [snd]. specialize (Hs c2). congruence.
  - assert (c1 = c2) as -> by congruence.
    rewrite (run_verify w1 c2 Hb1), (run_verify w2 c2 Hb2). cbn [fst snd].
    destruct (verify_same_answer w1 w2 _ _ (Hg c2)) as [Hp Ho].
    rewrite !printed_app, Hp. split; [reflexivity|exact Ho].
Qed.

Lemma output_does_not_depend_on_the_secrets_witness :
  printed (trace (sample_world (inr (PyList []))))
  = printed (trace (sample_world_other_wallet (inr (PyList []))))
  ∧ outcome (sample_world (inr (PyList [])))
    = outcome (sample_world_other_wallet (inr (PyList []))).
Proof.
  apply (output_does_not_depend_on_the_secrets
           (sample_world (inr (PyList [])))
           (sample_world_other_wallet (inr (PyList [])))).
  - split; vm_compute; reflexivity.
  - split; vm_compute; reflexivity.
  - vm_compute. reflexivity.
  - vm_compute. reflexivity.
  - intros c. vm_compute. reflexivity.
  - intros c. vm_compute. reflexivity.
Defined.

(** ** The shape of every run *)

(** X11.  Every run starts the same way: [load_dotenv()] first, then
    one read of each variable, the wallet address being read even when
    the private key is already missing; the configuration is not read
    again afterwards. *)
Theorem configuration_is_read_once_first (w : World) :
  ∃ rest,
    trace w
    = [EvLoadDotenv; EvGetenv "POLYMARKET_TRADER_PRIVATE_KEY";
       EvGetenv "POLYMARKET_TRADER_ADDRESS"] ++ rest
    ∧ Forall (λ ev, is_env_read ev = false) rest.
Proof.
  trace_at_stage w.
  - exists []. split; [reflexivity|constructor].
  - eexists. split; [reflexivity|]. by repeat constructor.
  - eexists. split; [reflexivity|]. by repeat constructor.
  - eexists. split; [reflexivity|]. by repeat constructor.
  - eexists. split; [reflexivity|]. by repeat constructor.
  - eexists. unfold until_verify, until_set, until_create.
    rewrite <- !app_assoc. split; [reflexivity|].
    simpl. repeat (constructor; [reflexivity|]).
    clear. induction l as [|s l IH]; simpl; by constructor.
Qed.

(** X12.  Nothing happens after a failure.  When the run ends with an
    uncaught exception [e], one of three things happened: [e] is the
    configuration error and only the three configuration reads took
    place; or the last event of the run is the call into the client
    library that raised [e]; or [create_or_derive_api_creds] returned
    [None], [e] is the [AttributeError] of line 33 and the last event
    is the print of line 32.  In each case no further call is made and
    nothing more is printed. *)
Theorem failure_stops_the_run (w : World) (e : PyExc) :
  outcome w = inl e →
  (e = config_error ∧ trace w = startup)
  ∨ (∃ ev, last (trace w) = Some ev
           ∧ is_client_call ev = true
           ∧ raised_by w ev e)
  ∨ (create_or_derive_result (backend w) (fresh_client w) = inr None
     ∧ e = mkExc AttributeError "'NoneType' object has no attribute 'api_key'"
     ∧ last (trace w) = Some (EvPrint (str_mul "=" 50))
     ∧ ∀ cl c, ¬ In (EvSetApiCreds cl c) (trace w)).
Proof.
  unfold outcome, trace.
  destruct (stage_of w) as [H|e' Hc Hi|e' Hb Hr|Hb Hr|c e' Ho Hs|c Hb].
  - rewrite (run_config_missing w H). cbn [fst snd]. intros [= <-].
    by left.
  - rewrite (run_init_raises w e' Hc Hi). cbn [fst snd]. intros [= <-].
    right; left. eexists. split; [apply last_snoc|]. by split.
  - rewrite (run_create_raises w e' Hb Hr). cbn [fst snd]. intros [= <-].
    right; left. eexists. split; [reflexivity|]. by split.
  - rewrite (run_create_None w Hb Hr). cbn [fst snd]. intros [= <-].
    right; right. repeat split; [done|].
    intros cl c Hin. simpl in Hin. no_such_event.
  - rewrite (run_set_raises w c e' Ho Hs). cbn [fst snd]. intros [= <-].
    right; left. exists (EvSetApiCreds (fresh_client w) c).
    split; [|by split].
    unfold until_set. rewrite app_assoc. apply last_snoc.
  - rewrite (run_verify w c Hb). cbn [fst snd]. intros Hv.
    set (cl := bound_client w c) in *.
    destruct (get_api_keys_result (backend w) cl) as [e'|v] eqn:Hg.
    + destruct (isinstance_Exception e') eqn:He.
      * by rewrite (verify_caught w cl e' Hg He) in Hv.
      * rewrite (verify_escapes w cl e' Hg He) in *. injection Hv as <-.
        right; left. exists (EvGetApiKeys cl). split; [apply last_snoc|].
        by split.
    + destruct (py_len v) as [e'|n] eqn:Hn.
      * by rewrite (verify_len_fails w cl v e' Hg Hn) in Hv.
      * by rewrite (verify_counts w cl v n Hg Hn) in Hv.
Qed.

Lemma failure_stops_the_run_witness :
  (no_api_key_attribute = config_error
   ∧ trace world_create_returns_None = startup)
  ∨ (∃ ev, last (trace world_create_returns_None) = Some ev
           ∧ is_client_call ev = true
           ∧ raised_by world_create_returns_None ev no_api_key_attribute)
  ∨ (create_or_derive_result (backend world_create_returns_None)
       (fresh_client world_create_returns_None) = inr None
     ∧ no_api_key_attribute
       = mkExc AttributeError "'NoneType' object has no attribute 'api_key'"
     ∧ last (trace world_create_returns_None)
       = Some (EvPrint (str_mul "=" 50))
     ∧ ∀ cl c, ¬ In (EvSetApiCreds cl c) (trace world_create_returns_None)).
Proof.
  apply (failure_stops_the_run world_create_returns_None
           no_api_key_attribute).
  vm_compute. reflexivity.
Defined.

(** ** An answer that is not a credential set *)

(** X13.  When [create_or_derive_api_creds] returns [None] instead of
    raising, the script prints the banner that announces success and
    then ends with an uncaught [AttributeError] at the first field it
    reads (line 33): no credential line is printed, and neither
    [set_api_creds] nor [get_api_keys] is called. *)
Theorem none_answer_fails_after_the_success_banner
    (w : World) (cl : ClobClient) :
  In (EvCreateOrDerive cl) (trace w) →
  create_or_derive_result (backend w) cl = inr None →
  outcome w
  = inl (mkExc AttributeError "'NoneType' object has no attribute 'api_key'")
  ∧ printed (trace w)
    = ["正在生成 API 凭证..."; nl +:+ str_mul "=" 50;
       "✅ API 凭证生成成功！请妥善保存以下信息："; str_mul "=" 50]
  ∧ no_credential_line (printed (trace w))
  ∧ (∀ cl' c, ¬ In (EvSetApiCreds cl' c) (trace w))
  ∧ (∀ cl', ¬ In (EvGetApiKeys cl') (trace w)).
Proof.
  intros [Hb ->]%reaches_create Hr. unfold outcome, trace.
  rewrite (run_create_None w Hb Hr). cbn [fst snd].
  repeat split.
  - by repeat constructor.
  - intros cl' c Hin. simpl in Hin. no_such_event.
  - intros cl' Hin. simpl in Hin. no_such_event.
Qed.

Lemma none_answer_fails_after_the_success_banner_witness :
  outcome world_create_returns_None
  = inl (mkExc AttributeError "'NoneType' object has no attribute 'api_key'")
  ∧ printed (trace world_create_returns_None)
    = ["正在生成 API 凭证..."; nl +:+ str_mul "=" 50;
       "✅ API 凭证生成成功！请妥善保存以下信息："; str_mul "=" 50]
  ∧ no_credential_line (printed (trace world_create_returns_None))
  ∧ (∀ cl' c, ¬ In (EvSetApiCreds cl' c) (trace world_create_returns_None))
  ∧ (∀ cl', ¬ In (EvGetApiKeys cl') (trace world_create_returns_None)).
Proof.
  apply (none_answer_fails_after_the_success_banner
           world_create_returns_None
           (fresh_client world_create_returns_None)).
  - vm_compute. tauto.
  - reflexivity.
Defined.
